(** * SPI master/slave loopback example (PolarFire SoC, hart u54_1)

    A shallow embedding of the application [src/unnamed/part_000]: the
    command/response table, the slave command handler, the overflow handler
    and the body of [u54_1], together with a model of the MSS SPI driver
    calls the application makes.  Bytes are [Z] reduced modulo 2^8, sizes
    are [Z] reduced modulo 2^32, global buffers are byte lists held in an
    explicit memory, and every function that touches the machine is a state
    transformer [machine -> option machine] ([None]: the C behaviour is
    undefined or the link cannot make progress). *)

From stdpp Require Import base option list numbers.

Local Open Scope Z_scope.

(** ** Machine integers *)

Definition uint8 (z : Z) : Z := z mod 2 ^ 8.
Definition uint32 (z : Z) : Z := z mod 2 ^ 32.

(** ** Macro definitions (part_000, lines 19-23) *)

Definition COMMAND_BYTE_SIZE : Z := 1.
Definition NB_OF_TURNAROUND_BYTES : Z := 4.
Definition SLAVE_NB_OF_COMMANDS : Z := 4.
Definition SLAVE_PACKET_LENGTH : Z := 8.
Definition MSS_SPI_LOOPBACK_MASK : Z := 2.

(** ** Global buffers (part_000, lines 35-45): initial contents *)

Definition g_slave_tx_buffer : list (list Z) :=
  [ [0x01; 0x02; 0x03; 0x04; 0x05; 0x06; 0x07; 0x08];
    [0x11; 0x12; 0x13; 0x14; 0x15; 0x16; 0x17; 0x18];
    [0x21; 0x22; 0x23; 0x24; 0x25; 0x26; 0x27; 0x28];
    [0x31; 0x32; 0x33; 0x34; 0x35; 0x36; 0x37; 0x38] ].

Definition g_master_tx_buffer : list Z := [0x00; 0x01; 0x02; 0x03; 0xAA].
Definition g_master_rx_buffer : list Z := replicate 8 0.
Definition g_slave_rx_buffer : list Z := replicate 13 0.

Definition sizeof (object : list Z) : Z := Z.of_nat (length object).

(** ** Memory: the four global objects, each as its bytes in address order
    (the two-dimensional table is laid out row after row). *)

Inductive global : Set :=
| obj_slave_tx_buffer
| obj_master_tx_buffer
| obj_master_rx_buffer
| obj_slave_rx_buffer.

Global Instance global_eq_dec : EqDecision global.
Proof. solve_decision. Defined.

Record memory : Set := Memory {
  slave_tx_bytes : list Z;
  master_tx_bytes : list Z;
  master_rx_bytes : list Z;
  slave_rx_bytes : list Z
}.

Definition object (M : memory) (g : global) : list Z :=
  match g with
  | obj_slave_tx_buffer => slave_tx_bytes M
  | obj_master_tx_buffer => master_tx_bytes M
  | obj_master_rx_buffer => master_rx_bytes M
  | obj_slave_rx_buffer => slave_rx_bytes M
  end.

Definition set_object (M : memory) (g : global) (bytes : list Z) : memory :=
  match g with
  | obj_slave_tx_buffer =>
      Memory bytes (master_tx_bytes M) (master_rx_bytes M) (slave_rx_bytes M)
  | obj_master_tx_buffer =>
      Memory (slave_tx_bytes M) bytes (master_rx_bytes M) (slave_rx_bytes M)
  | obj_master_rx_buffer =>
      Memory (slave_tx_bytes M) (master_tx_bytes M) bytes (slave_rx_bytes M)
  | obj_slave_rx_buffer =>
      Memory (slave_tx_bytes M) (master_tx_bytes M) (master_rx_bytes M) bytes
  end.

(** A [uint8_t *]: an object and a byte offset into it. *)
Record pointer : Set := Ptr { base : global; offset : Z }.

Global Instance pointer_eq_dec : EqDecision pointer.
Proof. solve_decision. Defined.

(** [&a[i]] for a one-dimensional array and [&t[i][j]] for the table, whose
    rows are [SLAVE_PACKET_LENGTH] bytes long. *)
Definition addr (g : global) (i : Z) : pointer := Ptr g i.
Definition addr2 (g : global) (i j : Z) : pointer :=
  Ptr g (i * SLAVE_PACKET_LENGTH + j).

(** The byte range [p, p + n) lies inside the object [p] points into. *)
Definition in_bounds (M : memory) (p : pointer) (n : Z) : Prop :=
  0 ≤ offset p ∧ 0 ≤ n ∧ offset p + n ≤ sizeof (object M (base p)).

Global Instance in_bounds_dec M p n : Decision (in_bounds M p n).
Proof. unfold in_bounds. apply _. Defined.

(** Reading [n] bytes through [p]; outside the object the read is undefined. *)
Definition load (M : memory) (p : pointer) (n : Z) : option (list Z) :=
  if decide (in_bounds M p n)
  then Some (take (Z.to_nat n) (drop (Z.to_nat (offset p)) (object M (base p))))
  else None.

(** Writing [bytes] through [p]; outside the object the write is undefined. *)
Definition store (M : memory) (p : pointer) (bytes : list Z) : option memory :=
  if decide (in_bounds M p (sizeof bytes))
  then
    let old := object M (base p) in
    let i := Z.to_nat (offset p) in
    Some (set_object M (base p)
            (take i old ++ bytes ++ drop (i + length bytes) old))
  else None.

(** The memory image at start-up. *)
Definition initial_memory : memory :=
  {| slave_tx_bytes := concat g_slave_tx_buffer;
     master_tx_bytes := g_master_tx_buffer;
     master_rx_bytes := g_master_rx_buffer;
     slave_rx_bytes := g_slave_rx_buffer |}.

(** Row [i] of the table as it currently stands in memory. *)
Definition table_row (M : memory) (i : Z) : option (list Z) :=
  load M (addr2 obj_slave_tx_buffer i 0) SLAVE_PACKET_LENGTH.

(** ** Hardware and driver state *)

Inductive mss_peripherals : Set := MSS_PERIPH_SPI0 | MSS_PERIPH_SPI1.
Inductive PERIPH_RESET_STATE : Set := PERIPHERAL_ON | PERIPHERAL_OFF.
Inductive mss_spi_slave : Set := MSS_SPI_SLAVE_1.

Global Instance mss_peripherals_eq_dec : EqDecision mss_peripherals.
Proof. solve_decision. Defined.

Global Instance mss_spi_slave_eq_dec : EqDecision mss_spi_slave.
Proof. solve_decision. Defined.

(** From mss_sw_config.h, line 45. *)
Definition MPFS_HAL_FIRST_HART : Z := 0.

(** Modelled from the spec: the state of one endpoint's transport channel,
    whose clock/reset registers are not part of the sources.  Section 4.3
    gives [Ready -> (overflow event) -> Recovering -> Ready]; [Off] is the
    channel before it is first switched on. *)
Inductive channel_state : Set := Off | Ready | Recovering.

Global Instance channel_state_eq_dec : EqDecision channel_state.
Proof. solve_decision. Defined.

(** The two driver instances the application uses. *)
Inductive mss_spi_ref : Set := g_mss_spi0_lo | g_mss_spi1_lo.

(** The application functions whose address is handed to the driver. *)
Inductive block_handler : Set :=
| fn_spi1_slave_cmd_handler
| fn_spi1_block_rx_handler.
Inductive overflow_handler : Set := fn_mss_spi_overflow_handler.

(** Modelled from the spec: the driver's per-instance record
    (mss_spi_instance_t in mss_spi.h, not part of the sources), reduced to
    what section 6 asks of the transport: the registered callbacks, the
    block the responder answers with by default, its receive buffer, the
    staged reply, and the selection line. *)
Record mss_spi_instance : Set := Instance {
  slave_tx_buffer : option pointer;
  slave_tx_size : Z;
  slave_rx_buffer : option pointer;
  slave_rx_size : Z;
  block_rx_handler : option block_handler;
  cmd_handler : option block_handler;
  cmd_size : Z;
  resp_tx_buffer : option pointer;
  resp_buff_size : Z;
  buffer_overflow_handler : option overflow_handler;
  slave_select : option mss_spi_slave
}.

Definition blank_instance : mss_spi_instance :=
  Instance None 0 None 0 None None 0 None 0 None None.

(** One transaction as seen on the link: the bytes the controller shifted
    out and the bytes the responder shifted out. *)
Record frame : Set := Frame { mosi : list Z; miso : list Z }.

(** The whole machine: memory, the local [cmd_idx] of [u54_1], the two
    driver instances, the two channels, and the frames exchanged so far
    (oldest first; an observation, no code reads it). *)
Record machine : Set := Machine {
  mem : memory;
  cmd_idx : Z;
  spi0 : mss_spi_instance;
  spi1 : mss_spi_instance;
  spi0_channel : channel_state;
  spi1_channel : channel_state;
  wire : list frame
}.

Definition instance_of (r : mss_spi_ref) (m : machine) : mss_spi_instance :=
  match r with g_mss_spi0_lo => spi0 m | g_mss_spi1_lo => spi1 m end.

Definition set_instance (r : mss_spi_ref) (i : mss_spi_instance) (m : machine)
  : machine :=
  match r with
  | g_mss_spi0_lo =>
      Machine (mem m) (cmd_idx m) i (spi1 m) (spi0_channel m) (spi1_channel m)
        (wire m)
  | g_mss_spi1_lo =>
      Machine (mem m) (cmd_idx m) (spi0 m) i (spi0_channel m) (spi1_channel m)
        (wire m)
  end.

Definition channel_of (p : mss_peripherals) (m : machine) : channel_state :=
  match p with
  | MSS_PERIPH_SPI0 => spi0_channel m
  | MSS_PERIPH_SPI1 => spi1_channel m
  end.

Definition set_channel (p : mss_peripherals) (c : channel_state) (m : machine)
  : machine :=
  match p with
  | MSS_PERIPH_SPI0 =>
      Machine (mem m) (cmd_idx m) (spi0 m) (spi1 m) c (spi1_channel m) (wire m)
  | MSS_PERIPH_SPI1 =>
      Machine (mem m) (cmd_idx m) (spi0 m) (spi1 m) (spi0_channel m) c (wire m)
  end.

Definition set_mem (M : memory) (m : machine) : machine :=
  Machine M (cmd_idx m) (spi0 m) (spi1 m) (spi0_channel m) (spi1_channel m)
    (wire m).

Definition set_cmd_idx (c : Z) (m : machine) : machine :=
  Machine (mem m) c (spi0 m) (spi1 m) (spi0_channel m) (spi1_channel m)
    (wire m).

Definition log_frame (f : frame) (m : machine) : machine :=
  Machine (mem m) (cmd_idx m) (spi0 m) (spi1 m) (spi0_channel m)
    (spi1_channel m) (wire m ++ [f]).

(** Statements of a void C function run one after the other. *)
Definition action : Set := machine → option machine.
Definition seq_action (a b : action) : action := λ m, a m ≫= b.
Definition pure_action (f : machine → machine) : action := λ m, Some (f m).

Declare Scope action_scope.
Delimit Scope action_scope with act.
Bind Scope action_scope with action.
Notation "a ;;; b" := (seq_action a b)
  (at level 100, right associativity) : action_scope.

(** ** The driver calls made by the application *)

(** Modelled from the spec: mss_config_clk_rst (HAL, not part of the
    sources) with [PERIPHERAL_ON] makes the channel of that peripheral
    usable, "re-initialize/re-enable that endpoint's underlying transport
    channel", and touches no other state. *)
Definition mss_config_clk_rst (peripheral : mss_peripherals) (hart : Z)
    (req_state : PERIPH_RESET_STATE) : action :=
  pure_action (set_channel peripheral
                 match req_state with
                 | PERIPHERAL_ON => Ready
                 | PERIPHERAL_OFF => Off
                 end).

(** Modelled from the spec: MSS_SPI_init (driver, not part of the sources)
    starts the instance from a blank record. *)
Definition MSS_SPI_init (this_spi : mss_spi_ref) : action :=
  pure_action (set_instance this_spi blank_instance).

Definition register_overflow_handler (h : overflow_handler)
    (i : mss_spi_instance) : mss_spi_instance :=
  Instance (slave_tx_buffer i) (slave_tx_size i) (slave_rx_buffer i)
    (slave_rx_size i) (block_rx_handler i) (cmd_handler i) (cmd_size i)
    (resp_tx_buffer i) (resp_buff_size i) (Some h) (slave_select i).

(** Modelled from the spec: MSS_SPI_configure_master_mode and
    MSS_SPI_configure_slave_mode (driver, not part of the sources) are the
    spec's [register_overflow_handler(handler)].  The clock mode, clock
    divider and frame bit-size arguments belong to the register-level
    mechanics the spec leaves out and are not represented. *)
Definition MSS_SPI_configure_master_mode (this_spi : mss_spi_ref)
    (slave : mss_spi_slave) (handler : overflow_handler) : action :=
  pure_action (λ m, set_instance this_spi
                      (register_overflow_handler handler
                         (instance_of this_spi m)) m).

Definition MSS_SPI_configure_slave_mode (this_spi : mss_spi_ref)
    (handler : overflow_handler) : action :=
  pure_action (λ m, set_instance this_spi
                      (register_overflow_handler handler
                         (instance_of this_spi m)) m).

(** Modelled from the spec: MSS_SPI_set_slave_block_buffers (driver, not
    part of the sources) records the block the responder shifts out from the
    start of a frame, its receive buffer, and the spec's
    [register_frame_callback(handler)]. *)
Definition MSS_SPI_set_slave_block_buffers (this_spi : mss_spi_ref)
    (tx_buffer : pointer) (tx_buff_size : Z)
    (rx_buffer : pointer) (rx_buff_size : Z)
    (block_rx_handler' : block_handler) : action :=
  pure_action (λ m,
    let i := instance_of this_spi m in
    set_instance this_spi
      (Instance (Some tx_buffer) tx_buff_size (Some rx_buffer) rx_buff_size
         (Some block_rx_handler') (cmd_handler i) (cmd_size i)
         (resp_tx_buffer i) (resp_buff_size i) (buffer_overflow_handler i)
         (slave_select i)) m).

(** Modelled from the spec: MSS_SPI_set_cmd_handler (driver, not part of
    the sources) is the spec's [register_command_callback(prefix_len,
    handler)]. *)
Definition MSS_SPI_set_cmd_handler (this_spi : mss_spi_ref)
    (cmd_handler' : block_handler) (cmd_size' : Z) : action :=
  pure_action (λ m,
    let i := instance_of this_spi m in
    set_instance this_spi
      (Instance (slave_tx_buffer i) (slave_tx_size i) (slave_rx_buffer i)
         (slave_rx_size i) (block_rx_handler i) (Some cmd_handler') cmd_size'
         (resp_tx_buffer i) (resp_buff_size i) (buffer_overflow_handler i)
         (slave_select i)) m).

(** Modelled from the spec: MSS_SPI_set_cmd_response (driver, not part of
    the sources) is the spec's [stage_reply(payload_ptr, payload_len)]: it
    replaces the staged reply of the instance and nothing else. *)
Definition MSS_SPI_set_cmd_response (this_spi : mss_spi_ref)
    (cmd_response : pointer) (cmd_response_size : Z) : action :=
  pure_action (λ m,
    let i := instance_of this_spi m in
    set_instance this_spi
      (Instance (slave_tx_buffer i) (slave_tx_size i) (slave_rx_buffer i)
         (slave_rx_size i) (block_rx_handler i) (cmd_handler i) (cmd_size i)
         (Some cmd_response) cmd_response_size (buffer_overflow_handler i)
         (slave_select i)) m).

Definition with_slave_select (s : option mss_spi_slave) (i : mss_spi_instance)
  : mss_spi_instance :=
  Instance (slave_tx_buffer i) (slave_tx_size i) (slave_rx_buffer i)
    (slave_rx_size i) (block_rx_handler i) (cmd_handler i) (cmd_size i)
    (resp_tx_buffer i) (resp_buff_size i) (buffer_overflow_handler i) s.

(** Modelled from the spec: MSS_SPI_set_slave_select and
    MSS_SPI_clear_slave_select (driver, not part of the sources) assert and
    de-assert "the logical selection for the responder endpoint". *)
Definition MSS_SPI_set_slave_select (this_spi : mss_spi_ref)
    (slave : mss_spi_slave) : action :=
  pure_action (λ m, set_instance this_spi
                      (with_slave_select (Some slave)
                         (instance_of this_spi m)) m).

Definition MSS_SPI_clear_slave_select (this_spi : mss_spi_ref)
    (slave : mss_spi_slave) : action :=
  pure_action (λ m, set_instance this_spi
                      (with_slave_select None (instance_of this_spi m)) m).

(** ** The application's handlers (part_000, lines 143-205) *)

(** [p[0]] for a [uint8_t *p]. *)
Definition load_byte (M : memory) (p : pointer) : option Z :=
  load M p 1 ≫= head.

(** SPI slave receive completion handler: an empty body. *)
Definition spi1_block_rx_handler (rx_buff : pointer) (rx_size : Z) : action :=
  pure_action id.

(** SPI slave command handler. *)
Definition spi1_slave_cmd_handler (rx_buff : pointer) (rx_size : Z) : action :=
  λ m,
    index ← load_byte (mem m) rx_buff;
    let p_response :=
      if decide (index < SLAVE_NB_OF_COMMANDS)
      then addr2 obj_slave_tx_buffer index 0
      else addr2 obj_slave_tx_buffer 0 0 in
    MSS_SPI_set_cmd_response g_mss_spi1_lo p_response SLAVE_PACKET_LENGTH m.

(** SPI buffer overflow handler. *)
Definition mss_spi_overflow_handler (mss_spi_core : Z) : action :=
  if decide (mss_spi_core ≠ 0)
  then mss_config_clk_rst MSS_PERIPH_SPI1 MPFS_HAL_FIRST_HART PERIPHERAL_ON
  else mss_config_clk_rst MSS_PERIPH_SPI0 MPFS_HAL_FIRST_HART PERIPHERAL_ON.

(** Calling through a registered function pointer. *)
Definition call_block_handler (h : block_handler) : pointer → Z → action :=
  match h with
  | fn_spi1_slave_cmd_handler => spi1_slave_cmd_handler
  | fn_spi1_block_rx_handler => spi1_block_rx_handler
  end.

Definition call_overflow_handler (h : overflow_handler) : Z → action :=
  match h with fn_mss_spi_overflow_handler => mss_spi_overflow_handler end.

(** ** The transport: one framed transfer over the internal loopback *)

(** The instance at the other end of the loopback. *)
Definition peer (r : mss_spi_ref) : mss_spi_ref :=
  match r with
  | g_mss_spi0_lo => g_mss_spi1_lo
  | g_mss_spi1_lo => g_mss_spi0_lo
  end.

(** Modelled from the spec: a frame needs both channels usable ("no frames
    may be in flight on that endpoint while Recovering") and the responder
    selected (the link is "chip-select-framed"). *)
Definition link_usable (this_spi : mss_spi_ref) (m : machine) : Prop :=
  spi0_channel m = Ready ∧ spi1_channel m = Ready ∧
  slave_select (instance_of this_spi m) = Some MSS_SPI_SLAVE_1.

Global Instance link_usable_dec r m : Decision (link_usable r m).
Proof. unfold link_usable. apply _. Defined.

(** Modelled from the spec: the responder side of the driver's interrupt
    service (not part of the sources) when the command prefix has arrived:
    "an event callback invoked once a designated prefix of bytes has been
    received", with that prefix at the start of the receive buffer. *)
Definition responder_command_phase (r : mss_spi_ref) (sent : list Z) : action :=
  λ m,
    let i := instance_of r m in
    match cmd_handler i, slave_rx_buffer i with
    | Some h, Some rx =>
        if decide (0 < cmd_size i ≤ sizeof sent)
        then
          M ← store (mem m) rx (take (Z.to_nat (cmd_size i)) sent);
          call_block_handler h rx (cmd_size i) (set_mem M m)
        else Some m
    | _, _ => Some m
    end.

Definition load_staged (M : memory) (p : option pointer) (n : Z)
  : option (list Z) :=
  match p with
  | Some q => load M q n
  | None => Some []
  end.

(** Modelled from the spec: what the responder shifts out during one frame:
    the block set with the slave block buffers while the command and
    turnaround bytes are clocked, then the staged reply ("reply bytes
    appended to the same frame"). *)
Definition responder_shift_out (r : mss_spi_ref) (m : machine)
  : option (list Z) :=
  let i := instance_of r m in
  head_block ← load_staged (mem m) (slave_tx_buffer i) (slave_tx_size i);
  reply ← load_staged (mem m) (resp_tx_buffer i) (resp_buff_size i);
  Some (head_block ++ reply).

(** Modelled from the spec: the end of the frame on the responder side: the
    bytes the controller sent are in the receive buffer (as many as fit) and
    the second callback "fires once the full frame has been received".  The
    bytes the controller clocks out while it reads the reply are not
    described by the spec and are not represented. *)
Definition responder_frame_end (r : mss_spi_ref) (sent : list Z) : action :=
  λ m,
    let i := instance_of r m in
    match slave_rx_buffer i with
    | Some rx =>
        let kept := take (Z.to_nat (slave_rx_size i)) sent in
        M ← store (mem m) rx kept;
        match block_rx_handler i with
        | Some h => call_block_handler h rx (sizeof kept) (set_mem M m)
        | None => Some (set_mem M m)
        end
    | None => Some m
    end.

(** Modelled from the spec: MSS_SPI_transfer_block (driver, not part of the
    sources) is the spec's [send_receive_frame(tx_bytes, tx_len, rx_buffer,
    rx_len)]: it blocks until the frame of [cmd_byte_size + rd_byte_size]
    bytes has been exchanged, sends the [cmd_byte_size] command bytes, and
    keeps in [rd_buffer] the [rd_byte_size] bytes that come back after
    them.  A responder that has fewer bytes to give than the frame is long
    leaves the reply undefined. *)
Definition MSS_SPI_transfer_block (this_spi : mss_spi_ref)
    (cmd_buffer : pointer) (cmd_byte_size : Z)
    (rd_buffer : pointer) (rd_byte_size : Z) : action :=
  λ m,
    if decide (link_usable this_spi m)
    then
      sent ← load (mem m) cmd_buffer cmd_byte_size;
      m1 ← responder_command_phase (peer this_spi) sent m;
      out ← responder_shift_out (peer this_spi) m1;
      let transfer_size := uint32 (cmd_byte_size + rd_byte_size) in
      if decide (0 ≤ rd_byte_size ∧ transfer_size ≤ sizeof out)
      then
        let back := take (Z.to_nat transfer_size) out in
        M ← store (mem m1) rd_buffer (drop (Z.to_nat cmd_byte_size) back);
        m2 ← responder_frame_end (peer this_spi) sent (set_mem M m1);
        Some (log_frame (Frame sent back) m2)
      else None
    else None.

(** ** [u54_1] (part_000, lines 53-141) *)

(** Lines 55-113: everything before the loop.  The wait for the software
    interrupt and the interrupt-controller calls (PLIC_init, __enable_irq,
    PLIC_SetPriority) do not touch the state modelled here. *)
Definition u54_1_setup : action :=
  (pure_action (set_cmd_idx 0) ;;;
   mss_config_clk_rst MSS_PERIPH_SPI0 MPFS_HAL_FIRST_HART PERIPHERAL_ON ;;;
   mss_config_clk_rst MSS_PERIPH_SPI1 MPFS_HAL_FIRST_HART PERIPHERAL_ON ;;;
   MSS_SPI_init g_mss_spi0_lo ;;;
   MSS_SPI_configure_master_mode g_mss_spi0_lo MSS_SPI_SLAVE_1
     fn_mss_spi_overflow_handler ;;;
   MSS_SPI_init g_mss_spi1_lo ;;;
   MSS_SPI_configure_slave_mode g_mss_spi1_lo fn_mss_spi_overflow_handler ;;;
   MSS_SPI_set_slave_block_buffers g_mss_spi1_lo
     (addr2 obj_slave_tx_buffer 0 0)
     (uint32 (COMMAND_BYTE_SIZE + NB_OF_TURNAROUND_BYTES))
     (addr obj_slave_rx_buffer 0)
     (sizeof g_slave_rx_buffer)
     fn_spi1_block_rx_handler ;;;
   MSS_SPI_set_cmd_handler g_mss_spi1_lo fn_spi1_slave_cmd_handler
     COMMAND_BYTE_SIZE ;;;
   MSS_SPI_set_slave_select g_mss_spi0_lo MSS_SPI_SLAVE_1)%act.

(** Lines 117-128: select, transfer, de-select. *)
Definition u54_1_transfer : action :=
  (MSS_SPI_set_slave_select g_mss_spi0_lo MSS_SPI_SLAVE_1 ;;;
   MSS_SPI_transfer_block g_mss_spi0_lo
     (addr obj_master_tx_buffer 0)
     (uint32 (COMMAND_BYTE_SIZE + NB_OF_TURNAROUND_BYTES))
     (addr obj_master_rx_buffer 0)
     (sizeof g_master_rx_buffer) ;;;
   MSS_SPI_clear_slave_select g_mss_spi0_lo MSS_SPI_SLAVE_1)%act.

(** Lines 131-138: [cmd_idx] after the [if]/[else]; the increment is on a
    [uint8_t]. *)
Definition next_cmd_idx (cmd_idx : Z) : Z :=
  if decide (3 = cmd_idx) then 0 else uint8 (cmd_idx + 1).

(** Lines 130-139: the next command, written to [g_master_tx_buffer[0]]. *)
Definition u54_1_next_command : action :=
  λ m,
    let cmd_idx' := next_cmd_idx (cmd_idx m) in
    M ← store (mem m) (addr obj_master_tx_buffer 0) [cmd_idx'];
    Some (set_mem M (set_cmd_idx cmd_idx' m)).

(** Lines 116-140: one turn of [for (;;)]. *)
Definition u54_1_loop_body : action :=
  (u54_1_transfer ;;; u54_1_next_command)%act.

(** ** Running the program *)

Inductive endpoint : Set := Controller | Responder.

Definition peripheral_of (e : endpoint) : mss_peripherals :=
  match e with Controller => MSS_PERIPH_SPI0 | Responder => MSS_PERIPH_SPI1 end.

Definition instance_ref_of (e : endpoint) : mss_spi_ref :=
  match e with Controller => g_mss_spi0_lo | Responder => g_mss_spi1_lo end.

Definition other (e : endpoint) : endpoint :=
  match e with Controller => Responder | Responder => Controller end.

(** Modelled from the spec: the identifier the driver (not part of the
    sources) hands to the overflow handler, "which endpoint role
    overflowed": 0 for the controller's core, 1 for the responder's. *)
Definition core_of (e : endpoint) : Z :=
  match e with Controller => 0 | Responder => 1 end.

(** Modelled from the spec: an overflow on endpoint [e] as the driver's
    interrupt service (not part of the sources) presents it: the channel
    leaves [Ready], and the handler registered for that instance runs to
    completion before the service returns. *)
Definition overflow_event (e : endpoint) : action :=
  λ m,
    let m1 := set_channel (peripheral_of e) Recovering m in
    match buffer_overflow_handler (instance_of (instance_ref_of e) m1) with
    | Some h => call_overflow_handler h (core_of e) m1
    | None => Some m1
    end.

(** What happens after the setup: a turn of the loop, or an overflow
    interrupt between two turns. *)
Inductive event : Set := Cycle | Overflow (e : endpoint).

Definition step (ev : event) : action :=
  match ev with
  | Cycle => u54_1_loop_body
  | Overflow e => overflow_event e
  end.

Fixpoint run (evs : list event) : action :=
  match evs with
  | [] => Some
  | ev :: rest => (step ev ;;; run rest)%act
  end.

(** The machine when [u54_1] is entered. *)
Definition boot : machine :=
  Machine initial_memory 0 blank_instance blank_instance Off Off [].

(** [u54_1] up to the end of the schedule [evs]; the loop itself never
    ends, so every finite schedule is a prefix of an execution. *)
Definition u54_1 (evs : list event) : option machine :=
  (u54_1_setup ;;; run evs)%act boot.

(** [n] turns of the loop with no overflow. *)
Definition cycles (n : nat) : list event := replicate n Cycle.

(** ** Observations and invariants *)

(** The contents of [g_master_rx_buffer]: the reply the controller keeps. *)
Definition received (m : machine) : list Z := master_rx_bytes (mem m).

(** The command byte of a frame. *)
Definition command_of (f : frame) : option Z := head (mosi f).

(** The instances as the setup leaves them; the responder's staged reply
    and the controller's selection line change from frame to frame. *)
Definition controller_instance (sel : option mss_spi_slave) : mss_spi_instance :=
  Instance None 0 None 0 None None 0 None 0
    (Some fn_mss_spi_overflow_handler) sel.

Definition responder_instance (staged : option pointer) (n : Z)
  : mss_spi_instance :=
  Instance (Some (addr2 obj_slave_tx_buffer 0 0)) 5
    (Some (addr obj_slave_rx_buffer 0)) 13
    (Some fn_spi1_block_rx_handler) (Some fn_spi1_slave_cmd_handler) 1
    staged n (Some fn_mss_spi_overflow_handler) None.

(** The link is set up and idle: the table holds its initial bytes, the
    buffers have their declared sizes, both instances are configured and
    both channels are usable. *)
Record link_ready (m : machine) : Prop := LinkReady {
  ready_table : slave_tx_bytes (mem m) = concat g_slave_tx_buffer;
  ready_master_tx : length (master_tx_bytes (mem m)) = 5%nat;
  ready_master_rx : length (master_rx_bytes (mem m)) = 8%nat;
  ready_slave_rx : length (slave_rx_bytes (mem m)) = 13%nat;
  ready_spi0 : ∃ sel, spi0 m = controller_instance sel;
  ready_spi1 : ∃ staged n, spi1 m = responder_instance staged n;
  ready_channel0 : spi0_channel m = Ready;
  ready_channel1 : spi1_channel m = Ready
}.

(** The pointer the command handler stages for command byte [index]. *)
Definition staged_for (index : Z) : pointer :=
  if decide (index < SLAVE_NB_OF_COMMANDS)
  then addr2 obj_slave_tx_buffer index 0
  else addr2 obj_slave_tx_buffer 0 0.

(** The machine after one transfer issued in a ready state whose transmit
    buffer is [sent]. *)
Definition after_transfer (sent : list Z) (index : Z) (m : machine) : machine :=
  let reply :=
    take 8 (drop (Z.to_nat (offset (staged_for index)))
              (concat g_slave_tx_buffer)) in
  Machine
    (Memory (concat g_slave_tx_buffer) sent reply
       (sent ++ drop 5 (slave_rx_bytes (mem m))))
    (cmd_idx m)
    (controller_instance None)
    (responder_instance (Some (staged_for index)) SLAVE_PACKET_LENGTH)
    Ready Ready
    (wire m ++ [Frame sent (take 5 (concat g_slave_tx_buffer) ++ reply)]).

(** Bytes 1 to 4 of [g_master_tx_buffer] as initialised. *)
Definition filler : list Z := [0x01; 0x02; 0x03; 0xAA].

(** Frame number [k] (counting from 0) of a run. *)
Definition expected_frame (k : nat) : frame :=
  let command := Z.of_nat k mod SLAVE_NB_OF_COMMANDS in
  Frame (command :: filler)
    (take 5 (concat g_slave_tx_buffer) ++
     default [] (g_slave_tx_buffer !! Z.to_nat command)).

(** The state between two turns of the loop, [n] turns after the setup. *)
Record running (n : nat) (m : machine) : Prop := Running {
  running_ready : link_ready m;
  running_cmd_idx : cmd_idx m = Z.of_nat n mod SLAVE_NB_OF_COMMANDS;
  running_tx : master_tx_bytes (mem m) = cmd_idx m :: filler;
  running_wire : wire m = expected_frame <$> seq 0 n
}.

(** The number of turns of the loop in a schedule. *)
Fixpoint turns (evs : list event) : nat :=
  match evs with
  | [] => 0
  | Cycle :: rest => S (turns rest)
  | Overflow _ :: rest => turns rest
  end.

(** The machine after one turn of the loop taken in a ready state whose
    transmit buffer is [command :: tail]. *)
Definition after_cycle (command : Z) (tail : list Z) (m : machine) : machine :=
  let m1 := after_transfer (command :: tail) command m in
  let cmd_idx' := next_cmd_idx (cmd_idx m) in
  Machine
    (Memory (concat g_slave_tx_buffer) (cmd_idx' :: tail)
       (master_rx_bytes (mem m1)) (slave_rx_bytes (mem m1)))
    cmd_idx' (spi0 m1) (spi1 m1) Ready Ready (wire m1).

(** The machine when the loop is entered. *)
Definition entry : machine :=
  Machine initial_memory 0
    (controller_instance (Some MSS_SPI_SLAVE_1))
    (responder_instance None 0) Ready Ready [].

(** A frame issued in state [m] completes with [staged] as the staged reply
    pointer, for [SLAVE_PACKET_LENGTH] bytes that lie inside the table and
    read as [reply]; the bytes that follow the command and turnaround bytes
    on the link, and the bytes the controller keeps, are [reply]. *)
Definition frame_replies (m : machine) (staged : pointer) (reply : list Z)
  : Prop :=
  ∃ m' f,
    u54_1_transfer m = Some m' ∧
    resp_tx_buffer (spi1 m') = Some staged ∧
    resp_buff_size (spi1 m') = SLAVE_PACKET_LENGTH ∧
    base staged = obj_slave_tx_buffer ∧
    in_bounds (mem m') staged SLAVE_PACKET_LENGTH ∧
    load (mem m') staged SLAVE_PACKET_LENGTH = Some reply ∧
    wire m' = wire m ++ [f] ∧
    command_of f = head (master_tx_bytes (mem m)) ∧
    drop (Z.to_nat (COMMAND_BYTE_SIZE + NB_OF_TURNAROUND_BYTES)) (miso f)
      = reply ∧
    received m' = reply.

(** The command handler changes the staged reply of the responder and
    nothing else. *)
Definition only_stages (m m' : machine) : Prop :=
  mem m' = mem m ∧ cmd_idx m' = cmd_idx m ∧ spi0 m' = spi0 m ∧
  spi0_channel m' = spi0_channel m ∧ spi1_channel m' = spi1_channel m ∧
  wire m' = wire m ∧
  slave_tx_buffer (spi1 m') = slave_tx_buffer (spi1 m) ∧
  slave_tx_size (spi1 m') = slave_tx_size (spi1 m) ∧
  slave_rx_buffer (spi1 m') = slave_rx_buffer (spi1 m) ∧
  slave_rx_size (spi1 m') = slave_rx_size (spi1 m) ∧
  block_rx_handler (spi1 m') = block_rx_handler (spi1 m) ∧
  cmd_handler (spi1 m') = cmd_handler (spi1 m) ∧
  cmd_size (spi1 m') = cmd_size (spi1 m) ∧
  buffer_overflow_handler (spi1 m') = buffer_overflow_handler (spi1 m) ∧
  slave_select (spi1 m') = slave_select (spi1 m).

(** The loop entry with an arbitrary command byte in the transmit buffer,
    used as a concrete ready state. *)
Definition entry_with_command (command : Z) : machine :=
  set_mem (set_object (mem entry) obj_master_tx_buffer (command :: filler))
    entry.

(** The controller's transfer completes and leaves [reply] in
    [g_master_rx_buffer]. *)
Definition frame_returns (m : machine) (reply : list Z) : Prop :=
  ∃ m', u54_1_transfer m = Some m' ∧ received m' = reply.

(** ** Lemmas about the handlers *)

Lemma small_command index :
  0 ≤ index < SLAVE_NB_OF_COMMANDS →
  index = 0 ∨ index = 1 ∨ index = 2 ∨ index = 3.
Proof. unfold SLAVE_NB_OF_COMMANDS. lia. Qed.

(** Replace a command known to be in range by each of its four values. *)
Ltac each_command H :=
  destruct (small_command _ H) as [->|[->|[->| ->]]].

Lemma staged_for_in_range index :
  index < SLAVE_NB_OF_COMMANDS →
  staged_for index = addr2 obj_slave_tx_buffer index 0.
Proof. intros H. unfold staged_for. by rewrite decide_True. Qed.

Lemma staged_for_fallback index :
  SLAVE_NB_OF_COMMANDS ≤ index →
  staged_for index = addr2 obj_slave_tx_buffer 0 0.
Proof. intros H. unfold staged_for. rewrite decide_False; [done | lia]. Qed.

Lemma spi1_slave_cmd_handler_stages rx_buff rx_size m index :
  load_byte (mem m) rx_buff = Some index →
  spi1_slave_cmd_handler rx_buff rx_size m =
  MSS_SPI_set_cmd_response g_mss_spi1_lo (staged_for index)
    SLAVE_PACKET_LENGTH m.
Proof. intros H. unfold spi1_slave_cmd_handler. by rewrite H. Qed.

Lemma u54_1_transfer_ready m index fill :
  link_ready m →
  master_tx_bytes (mem m) = index :: fill →
  0 ≤ index →
  u54_1_transfer m = Some (after_transfer (index :: fill) index m).
Proof.
  intros [Ht Hmt Hmr Hsr [sel H0] [staged [n H1]] Hc0 Hc1] Htx Hindex.
  destruct m as [[tbl mtx mrx srx] c s0 s1 c0 c1 w]; simpl in *; subst.
  destruct fill as [|b1 [|b2 [|b3 [|b4 [|]]]]]; try discriminate.
  do 9 (destruct mrx as [|? mrx]; try discriminate).
  do 14 (destruct srx as [|? srx]; try discriminate).
  clear Hmt Hmr Hsr.
  destruct (decide (index < SLAVE_NB_OF_COMMANDS)) as [Hlt|Hge].
  - each_command (conj Hindex Hlt); vm_compute; reflexivity.
  - (* the handler is kept folded while the rest of the frame is
       evaluated, then replaced by what it stages in the fallback case *)
    assert (SLAVE_NB_OF_COMMANDS ≤ index) as Hout by lia.
    unfold after_transfer. rewrite staged_for_fallback by done.
    lazy -[spi1_slave_cmd_handler].
    erewrite spi1_slave_cmd_handler_stages by reflexivity.
    rewrite staged_for_fallback by done.
    reflexivity.
Qed.

(** The eight bytes behind the staged pointer are a row of the table. *)
Lemma staged_row_in_range index row :
  0 ≤ index < SLAVE_NB_OF_COMMANDS →
  g_slave_tx_buffer !! Z.to_nat index = Some row →
  take 8 (drop (Z.to_nat (offset (staged_for index)))
            (concat g_slave_tx_buffer)) = row.
Proof.
  intros Hi Hrow. each_command Hi; vm_compute in Hrow |- *; congruence.
Qed.

Lemma staged_row_fallback index row :
  SLAVE_NB_OF_COMMANDS ≤ index →
  g_slave_tx_buffer !! 0%nat = Some row →
  take 8 (drop (Z.to_nat (offset (staged_for index)))
            (concat g_slave_tx_buffer)) = row.
Proof.
  intros Hi Hrow. rewrite staged_for_fallback by done.
  vm_compute in Hrow |- *. congruence.
Qed.

Lemma staged_row_length index :
  0 ≤ index →
  length (take 8 (drop (Z.to_nat (offset (staged_for index)))
                    (concat g_slave_tx_buffer))) = 8%nat.
Proof.
  intros Hi. destruct (decide (index < SLAVE_NB_OF_COMMANDS)) as [Hlt|Hge].
  - each_command (conj Hi Hlt); reflexivity.
  - rewrite staged_for_fallback by lia. reflexivity.
Qed.

Lemma staged_for_in_table index :
  0 ≤ index →
  base (staged_for index) = obj_slave_tx_buffer ∧
  0 ≤ offset (staged_for index) ∧
  offset (staged_for index) + SLAVE_PACKET_LENGTH
    ≤ sizeof (concat g_slave_tx_buffer).
Proof.
  intros Hi. destruct (decide (index < SLAVE_NB_OF_COMMANDS)) as [Hlt|Hge].
  - each_command (conj Hi Hlt); vm_compute; intuition congruence.
  - rewrite staged_for_fallback by lia. vm_compute; intuition congruence.
Qed.

Lemma after_transfer_ready sent index m :
  link_ready m → length sent = 5%nat → 0 ≤ index →
  link_ready (after_transfer sent index m).
Proof.
  intros [Ht Hmt Hmr Hsr H0 H1 Hc0 Hc1] Hsent Hindex.
  constructor; simpl; try done.
  - by apply staged_row_length.
  - rewrite length_app, length_drop, Hsent, Hsr. done.
  - by eexists.
  - by do 2 eexists.
Qed.

(** An overflow in a ready state is recovered without a trace. *)
Lemma overflow_event_ready e m :
  link_ready m → overflow_event e m = Some m.
Proof.
  intros [_ _ _ _ [sel H0] [staged [n H1]] Hc0 Hc1].
  destruct m as [M c s0 s1 c0 c1 w]; simpl in *; subst.
  by destruct e.
Qed.

(** ** The sequencer's invariant *)

Lemma next_cmd_idx_mod n :
  next_cmd_idx (Z.of_nat n mod SLAVE_NB_OF_COMMANDS)
  = Z.of_nat (S n) mod SLAVE_NB_OF_COMMANDS.
Proof.
  unfold next_cmd_idx, SLAVE_NB_OF_COMMANDS, uint8.
  assert (0 ≤ Z.of_nat n mod 4 < 4) as Hc by (apply Z.mod_pos_bound; lia).
  replace (Z.of_nat (S n)) with (Z.of_nat n + 1) by lia.
  rewrite <- (Zplus_mod_idemp_l (Z.of_nat n)).
  change (2 ^ 8) with 256.
  destruct (decide (3 = Z.of_nat n mod 4)) as [Heq|Hne].
  - by rewrite <- Heq.
  - set (c := Z.of_nat n mod 4) in *.
    rewrite (Z.mod_small (c + 1) 256), (Z.mod_small (c + 1) 4); lia.
Qed.

Lemma mod_command_range n :
  0 ≤ Z.of_nat n mod SLAVE_NB_OF_COMMANDS < SLAVE_NB_OF_COMMANDS.
Proof. apply Z.mod_pos_bound. done. Qed.

Lemma staged_row_expected n :
  take 8 (drop (Z.to_nat (offset (staged_for
                  (Z.of_nat n mod SLAVE_NB_OF_COMMANDS))))
            (concat g_slave_tx_buffer))
  = default [] (g_slave_tx_buffer !! Z.to_nat
                  (Z.of_nat n mod SLAVE_NB_OF_COMMANDS)).
Proof.
  each_command (mod_command_range n); reflexivity.
Qed.

Lemma u54_1_loop_body_ready m command tail :
  link_ready m →
  master_tx_bytes (mem m) = command :: tail →
  0 ≤ command →
  u54_1_loop_body m = Some (after_cycle command tail m).
Proof.
  intros Hready Htx Hcommand. unfold u54_1_loop_body, seq_action.
  rewrite (u54_1_transfer_ready m command tail) by done.
  cbn [mbind option_bind]. unfold u54_1_next_command, store.
  rewrite decide_True; [reflexivity|].
  unfold in_bounds, sizeof. simpl. lia.
Qed.

Lemma after_cycle_ready command tail m :
  link_ready m → length tail = 4%nat → 0 ≤ command →
  link_ready (after_cycle command tail m).
Proof.
  intros Hready Htail Hcommand.
  destruct (after_transfer_ready (command :: tail) command m Hready)
    as [Ht Hmt Hmr Hsr H0 H1 Hc0 Hc1]; simpl; [by f_equal | done |].
  constructor; try done; simpl; by f_equal.
Qed.

(** One turn of the loop from a running state. *)
Lemma u54_1_loop_body_running n m :
  running n m →
  u54_1_loop_body m = Some (after_cycle (cmd_idx m) filler m) ∧
  running (S n) (after_cycle (cmd_idx m) filler m) ∧
  received (after_cycle (cmd_idx m) filler m)
    = default [] (g_slave_tx_buffer !! Z.to_nat (cmd_idx m)).
Proof.
  intros [Hready Hc Htx Hw].
  pose proof (mod_command_range n) as Hrange. rewrite <- Hc in Hrange.
  split_and!.
  - apply u54_1_loop_body_ready; (done || lia).
  - constructor.
    + apply after_cycle_ready; (done || lia).
    + cbn [after_cycle cmd_idx]. by rewrite Hc, next_cmd_idx_mod.
    + reflexivity.
    + cbn [after_cycle after_transfer wire].
      rewrite Hw, seq_S, fmap_app. cbn [fmap list_fmap Nat.add].
      unfold expected_frame. by rewrite <- staged_row_expected, <- Hc.
  - cbn [received after_cycle after_transfer mem master_rx_bytes].
    by rewrite Hc, staged_row_expected.
Qed.

(** Every schedule runs to completion and keeps the invariant. *)
Lemma run_running evs : ∀ n m,
  running n m →
  ∃ m', run evs m = Some m' ∧ running (n + turns evs) m'.
Proof.
  induction evs as [|[|e] rest IH]; intros n m Hrun.
  - exists m. by rewrite Nat.add_0_r.
  - destruct (u54_1_loop_body_running n m Hrun) as (Hbody & Hrun' & _).
    destruct (IH _ _ Hrun') as (m' & Hm' & Hinv).
    exists m'. cbn [run step turns]. unfold seq_action. rewrite Hbody.
    cbn [mbind option_bind]. split; [done|].
    by replace (n + S (turns rest))%nat with (S n + turns rest)%nat by lia.
  - destruct (IH _ _ Hrun) as (m' & Hm' & Hinv).
    exists m'. cbn [run step turns]. unfold seq_action.
    rewrite overflow_event_ready by apply Hrun.
    cbn [mbind option_bind]. done.
Qed.

Lemma u54_1_setup_boot : u54_1_setup boot = Some entry.
Proof. reflexivity. Qed.

Lemma entry_running : running 0 entry.
Proof.
  repeat constructor; try reflexivity.
  - by eexists.
  - by do 2 eexists.
Qed.

Lemma u54_1_running evs :
  ∃ m, u54_1 evs = Some m ∧ running (turns evs) m.
Proof.
  unfold u54_1, seq_action. rewrite u54_1_setup_boot.
  apply (run_running evs 0 entry entry_running).
Qed.

(** ** What one frame delivers *)

Lemma load_staged_row M index :
  slave_tx_bytes M = concat g_slave_tx_buffer → 0 ≤ index →
  load M (staged_for index) SLAVE_PACKET_LENGTH
  = Some (take 8 (drop (Z.to_nat (offset (staged_for index)))
                    (concat g_slave_tx_buffer))).
Proof.
  intros HM Hindex.
  destruct (staged_for_in_table index Hindex) as (Hbase & Hlo & Hhi).
  destruct (staged_for index) as [g o]. cbn [base offset] in *. subst g.
  unfold load. rewrite decide_True.
  - cbn [object base offset]. by rewrite HM.
  - unfold in_bounds. cbn [object base offset]. rewrite HM.
    split_and!; done.
Qed.

Lemma u54_1_transfer_replies m index tail :
  link_ready m →
  master_tx_bytes (mem m) = index :: tail →
  0 ≤ index →
  frame_replies m (staged_for index)
    (take 8 (drop (Z.to_nat (offset (staged_for index)))
               (concat g_slave_tx_buffer))).
Proof.
  intros Hready Htx Hindex.
  exists (after_transfer (index :: tail) index m). eexists.
  split; [by apply u54_1_transfer_ready|].
  destruct (staged_for_in_table index Hindex) as (Hbase & Hlo & Hhi).
  split_and!; try reflexivity.
  - done.
  - unfold in_bounds. rewrite Hbase. split_and!; done.
  - by apply load_staged_row.
  - by rewrite Htx.
Qed.

Lemma MSS_SPI_set_cmd_response_only_stages p n m :
  ∃ m', MSS_SPI_set_cmd_response g_mss_spi1_lo p n m = Some m' ∧
        only_stages m m' ∧
        resp_tx_buffer (spi1 m') = Some p ∧ resp_buff_size (spi1 m') = n.
Proof. eexists. split; [reflexivity|]. by repeat split. Qed.

Lemma entry_with_command_ready command :
  link_ready (entry_with_command command).
Proof.
  constructor; try reflexivity.
  - by eexists.
  - by do 2 eexists.
Qed.

(** * The claims *)

(** C1: for every command byte [i] below the number of table rows (4), the
    command handler, registered for a command prefix of one byte, stages the
    start of row [i] of the table with the fixed length 8, and the eight
    bytes the controller keeps from that frame are row [i]. *)
Theorem C1_in_range_command_yields_row
    (m : machine) (i : Z) (tail row : list Z) :
  link_ready m →
  master_tx_bytes (mem m) = i :: tail →
  0 ≤ i < SLAVE_NB_OF_COMMANDS →
  g_slave_tx_buffer !! Z.to_nat i = Some row →
  cmd_handler (spi1 m) = Some fn_spi1_slave_cmd_handler ∧
  cmd_size (spi1 m) = COMMAND_BYTE_SIZE ∧
  (∀ rx_buff rx_size m0,
     load_byte (mem m0) rx_buff = Some i →
     spi1_slave_cmd_handler rx_buff rx_size m0
     = MSS_SPI_set_cmd_response g_mss_spi1_lo
         (addr2 obj_slave_tx_buffer i 0) SLAVE_PACKET_LENGTH m0) ∧
  frame_replies m (addr2 obj_slave_tx_buffer i 0) row ∧
  sizeof row = SLAVE_PACKET_LENGTH.
Proof.
  intros Hready Htx [Hlo Hhi] Hrow.
  destruct (ready_spi1 m Hready) as (staged & n & Hspi1).
  split_and!.
  - by rewrite Hspi1.
  - by rewrite Hspi1.
  - intros rx_buff rx_size m0 Hbyte.
    rewrite (spi1_slave_cmd_handler_stages _ _ _ i Hbyte).
    by rewrite staged_for_in_range.
  - pose proof (u54_1_transfer_replies m i tail Hready Htx Hlo) as Hframe.
    rewrite (staged_row_in_range i row) in Hframe by done.
    by rewrite staged_for_in_range in Hframe.
  - rewrite <- (staged_row_in_range i row) by done.
    unfold sizeof. by rewrite staged_row_length.
Qed.

(** C1 at the loop entry with command byte 2: the reply is the third row. *)
Lemma C1_in_range_command_yields_row_witness :
  frame_replies (entry_with_command 2) (addr2 obj_slave_tx_buffer 2 0)
    [0x21; 0x22; 0x23; 0x24; 0x25; 0x26; 0x27; 0x28].
Proof.
  refine (proj1 (proj2 (proj2 (proj2
    (C1_in_range_command_yields_row (entry_with_command 2) 2 filler
       [0x21; 0x22; 0x23; 0x24; 0x25; 0x26; 0x27; 0x28]
       (entry_with_command_ready 2) eq_refl _ eq_refl))))).
  unfold SLAVE_NB_OF_COMMANDS. lia.
Defined.

(** C2: for every command byte [i] from 4 up to 255 the command handler
    stages the start of row 0 with the fixed length 8; the transfer
    completes, the staged bytes lie inside the table, and the controller
    keeps row 0. *)
Theorem C2_out_of_range_command_falls_back
    (m : machine) (i : Z) (tail row0 : list Z) :
  link_ready m →
  master_tx_bytes (mem m) = i :: tail →
  SLAVE_NB_OF_COMMANDS ≤ i ≤ 255 →
  g_slave_tx_buffer !! 0%nat = Some row0 →
  (∀ rx_buff rx_size m0,
     load_byte (mem m0) rx_buff = Some i →
     spi1_slave_cmd_handler rx_buff rx_size m0
     = MSS_SPI_set_cmd_response g_mss_spi1_lo
         (addr2 obj_slave_tx_buffer 0 0) SLAVE_PACKET_LENGTH m0) ∧
  frame_replies m (addr2 obj_slave_tx_buffer 0 0) row0 ∧
  sizeof row0 = SLAVE_PACKET_LENGTH.
Proof.
  intros Hready Htx [Hlo Hhi] Hrow.
  assert (0 ≤ i) as Hpos by (unfold SLAVE_NB_OF_COMMANDS in Hlo; lia).
  split_and!.
  - intros rx_buff rx_size m0 Hbyte.
    rewrite (spi1_slave_cmd_handler_stages _ _ _ i Hbyte).
    by rewrite staged_for_fallback.
  - pose proof (u54_1_transfer_replies m i tail Hready Htx Hpos) as Hframe.
    rewrite (staged_row_fallback i row0) in Hframe by done.
    by rewrite staged_for_fallback in Hframe.
  - vm_compute in Hrow. injection Hrow as <-. reflexivity.
Qed.

(** C2 at the loop entry with command byte 255. *)
Lemma C2_out_of_range_command_falls_back_witness :
  frame_replies (entry_with_command 255) (addr2 obj_slave_tx_buffer 0 0)
    [0x01; 0x02; 0x03; 0x04; 0x05; 0x06; 0x07; 0x08].
Proof.
  refine (proj1 (proj2
    (C2_out_of_range_command_falls_back (entry_with_command 255) 255 filler
       [0x01; 0x02; 0x03; 0x04; 0x05; 0x06; 0x07; 0x08]
       (entry_with_command_ready 255) eq_refl _ eq_refl))).
  unfold SLAVE_NB_OF_COMMANDS. lia.
Defined.

(** C4: in every frame, command byte 0 is answered with 01..08, command 1
    with 11..18, command 2 with 21..28, command 3 with 31..38, and command 9
    with 01..08 (row 0). *)
Theorem C4_end_to_end_mapping (m : machine) (command : Z) (tail : list Z) :
  link_ready m →
  master_tx_bytes (mem m) = command :: tail →
  (command = 0 →
   frame_returns m [0x01; 0x02; 0x03; 0x04; 0x05; 0x06; 0x07; 0x08]) ∧
  (command = 1 →
   frame_returns m [0x11; 0x12; 0x13; 0x14; 0x15; 0x16; 0x17; 0x18]) ∧
  (command = 2 →
   frame_returns m [0x21; 0x22; 0x23; 0x24; 0x25; 0x26; 0x27; 0x28]) ∧
  (command = 3 →
   frame_returns m [0x31; 0x32; 0x33; 0x34; 0x35; 0x36; 0x37; 0x38]) ∧
  (command = 9 →
   frame_returns m [0x01; 0x02; 0x03; 0x04; 0x05; 0x06; 0x07; 0x08]).
Proof.
  intros Hready Htx.
  split_and!; intros ->;
    (eexists; split;
     [by apply (u54_1_transfer_ready m _ tail Hready Htx) | reflexivity]).
Qed.

(** C4 at the loop entry with command byte 9. *)
Lemma C4_end_to_end_mapping_witness :
  frame_returns (entry_with_command 9)
    [0x01; 0x02; 0x03; 0x04; 0x05; 0x06; 0x07; 0x08].
Proof.
  exact (proj2 (proj2 (proj2 (proj2
    (C4_end_to_end_mapping (entry_with_command 9) 9 filler
       (entry_with_command_ready 9) eq_refl)))) eq_refl).
Defined.

Lemma expected_frame_command k :
  command_of (expected_frame k) = Some (Z.of_nat k mod SLAVE_NB_OF_COMMANDS).
Proof. reflexivity. Qed.

Lemma running_commands n m :
  running n m →
  command_of <$> wire m
  = (λ k, Some (Z.of_nat k mod SLAVE_NB_OF_COMMANDS)) <$> seq 0 n.
Proof.
  intros Hrun. rewrite (running_wire n m Hrun), <- list_fmap_compose.
  apply list_fmap_ext. intros _ k _. apply expected_frame_command.
Qed.

Lemma mod_command_succ n :
  Z.of_nat (S n) mod SLAVE_NB_OF_COMMANDS
  = (Z.of_nat n mod SLAVE_NB_OF_COMMANDS + 1) mod SLAVE_NB_OF_COMMANDS.
Proof.
  replace (Z.of_nat (S n)) with (Z.of_nat n + 1) by lia.
  by rewrite Zplus_mod_idemp_l.
Qed.

(** C3: whatever happened so far, the command byte sent in the turn after
    a completed one is (the command just sent + 1) mod 4; counted from the
    setup, the commands on the link are 0, 1, 2, 3, 0, 1, 2, 3, ... *)
Theorem C3_command_index_cycles (evs : list event) :
  ∃ m m' m'' c c',
    u54_1 evs = Some m ∧
    u54_1_loop_body m = Some m' ∧
    u54_1_loop_body m' = Some m'' ∧
    command_of <$> wire m
    = (λ k, Some (Z.of_nat k mod SLAVE_NB_OF_COMMANDS))
        <$> seq 0 (turns evs) ∧
    command_of <$> wire m'' = (command_of <$> wire m) ++ [Some c; Some c'] ∧
    c = cmd_idx m ∧ c' = cmd_idx m' ∧
    c' = (c + 1) mod SLAVE_NB_OF_COMMANDS ∧
    ∃ m8, u54_1 (cycles 8) = Some m8 ∧
          command_of <$> wire m8 = Some <$> [0; 1; 2; 3; 0; 1; 2; 3].
Proof.
  destruct (u54_1_running evs) as (m & Hm & Hrun).
  destruct (u54_1_loop_body_running _ _ Hrun) as (Hbody & Hrun' & _).
  set (m' := after_cycle (cmd_idx m) filler m) in *.
  destruct (u54_1_loop_body_running _ _ Hrun') as (Hbody' & Hrun'' & _).
  exists m, m', (after_cycle (cmd_idx m') filler m'), (cmd_idx m), (cmd_idx m').
  split_and!; try done.
  - by apply running_commands.
  - rewrite (running_commands _ _ Hrun''), (running_commands _ _ Hrun).
    rewrite !seq_S, !fmap_app, <- app_assoc. cbn [fmap list_fmap app Nat.add].
    by rewrite (running_cmd_idx _ _ Hrun), (running_cmd_idx _ _ Hrun').
  - rewrite (running_cmd_idx _ _ Hrun'), (running_cmd_idx _ _ Hrun).
    apply mod_command_succ.
  - eexists. split; by vm_compute.
Qed.

(** C5, as the code has it: every turn of the loop performs one transfer in
    which the controller sends command + turnaround = 5 bytes, 13 bytes come
    back over the frame, and the last L = 8 of them are kept in a
    controller-side receive buffer of exactly 8 bytes; the buffer of 13
    bytes is the responder's. *)
Theorem C5_transfer_and_buffer_sizes (evs : list event) :
  ∃ m m' f,
    u54_1 evs = Some m ∧
    u54_1_loop_body m = Some m' ∧
    wire m' = wire m ++ [f] ∧
    sizeof (mosi f) = COMMAND_BYTE_SIZE + NB_OF_TURNAROUND_BYTES ∧
    sizeof (miso f)
    = COMMAND_BYTE_SIZE + NB_OF_TURNAROUND_BYTES + SLAVE_PACKET_LENGTH ∧
    received m'
    = drop (Z.to_nat (COMMAND_BYTE_SIZE + NB_OF_TURNAROUND_BYTES)) (miso f) ∧
    sizeof (received m') = SLAVE_PACKET_LENGTH ∧
    sizeof (received m') = sizeof g_master_rx_buffer ∧
    sizeof (slave_rx_bytes (mem m'))
    = COMMAND_BYTE_SIZE + NB_OF_TURNAROUND_BYTES + SLAVE_PACKET_LENGTH.
Proof.
  destruct (u54_1_running evs) as (m & Hm & Hrun).
  destruct (u54_1_loop_body_running _ _ Hrun) as (Hbody & Hrun' & _).
  destruct (running_ready _ _ Hrun') as [_ _ Hmr Hsr _ _ _ _].
  pose proof (mod_command_range (turns evs)) as Hrange.
  rewrite <- (running_cmd_idx _ _ Hrun) in Hrange.
  pose proof (staged_row_length (cmd_idx m) (proj1 Hrange)) as Hlen.
  eexists m, _, _. split_and!.
  - done.
  - done.
  - reflexivity.
  - reflexivity.
  - unfold sizeof. cbn [miso]. rewrite length_app, Hlen. reflexivity.
  - reflexivity.
  - unfold sizeof, received. by rewrite Hmr.
  - unfold sizeof, received. by rewrite Hmr.
  - unfold sizeof. by rewrite Hsr.
Qed.

(** C5 as stated fails at the very first turn: the controller's receive
    buffer holds 8 bytes, fewer than the 13 of a whole frame. *)
Lemma C5_receive_buffer_is_shorter_than_frame :
  ∃ m m',
    u54_1 [] = Some m ∧ u54_1_loop_body m = Some m' ∧
    sizeof (received m') = 8 ∧
    ¬ (COMMAND_BYTE_SIZE + NB_OF_TURNAROUND_BYTES + SLAVE_PACKET_LENGTH
       ≤ sizeof (received m')).
Proof.
  exists entry, (after_cycle 0 filler entry).
  split_and!; [by vm_compute | by vm_compute | by vm_compute |].
  vm_compute. intros H. by apply H.
Qed.

Lemma run_app evs1 evs2 m :
  run (evs1 ++ evs2) m = run evs1 m ≫= run evs2.
Proof.
  revert m. induction evs1 as [|ev rest IH]; intros m; [done|].
  cbn [app run]. unfold seq_action.
  destruct (step ev m) as [m1|]; [apply IH | done].
Qed.

Lemma u54_1_app evs1 evs2 :
  u54_1 (evs1 ++ evs2) = u54_1 evs1 ≫= run evs2.
Proof.
  unfold u54_1, seq_action. rewrite u54_1_setup_boot. cbn [mbind option_bind].
  apply run_app.
Qed.

(** C6: an overflow on one endpoint, at any point of any run, makes the
    overflow handler bring that endpoint's channel back to [Ready] and
    leaves the table, [cmd_idx], the rest of memory, the driver instances
    and the other channel as they were; the run continues exactly as it
    would have without the overflow.  The handler itself, in any state and
    for any argument, changes nothing but a channel. *)
Theorem C6_overflow_recovery_preserves_protocol_state
    (evs : list event) (e : endpoint) :
  (∃ m m',
     u54_1 evs = Some m ∧
     overflow_event e m = Some m' ∧
     mss_spi_overflow_handler (core_of e)
       (set_channel (peripheral_of e) Recovering m) = Some m' ∧
     channel_of (peripheral_of e) m' = Ready ∧
     channel_of (peripheral_of (other e)) m'
     = channel_of (peripheral_of (other e)) m ∧
     slave_tx_bytes (mem m') = concat g_slave_tx_buffer ∧
     mem m' = mem m ∧
     cmd_idx m' = cmd_idx m ∧
     spi0 m' = spi0 m ∧ spi1 m' = spi1 m ∧
     u54_1_loop_body m' = u54_1_loop_body m) ∧
  (∀ rest, u54_1 (evs ++ Overflow e :: rest) = u54_1 (evs ++ rest)) ∧
  (∀ core m0, ∃ m0',
     mss_spi_overflow_handler core m0 = Some m0' ∧
     mem m0' = mem m0 ∧ cmd_idx m0' = cmd_idx m0 ∧
     spi0 m0' = spi0 m0 ∧ spi1 m0' = spi1 m0 ∧ wire m0' = wire m0).
Proof.
  destruct (u54_1_running evs) as (m & Hm & Hrun).
  pose proof (running_ready _ _ Hrun) as Hready.
  pose proof (overflow_event_ready e m Hready) as Hover.
  split_and!.
  - exists m, m. split_and!; try done.
    + rewrite <- Hover. unfold overflow_event.
      destruct Hready as [_ _ _ _ [sel H0] [staged [n H1]] _ _].
      clear Hm Hrun Hover.
      destruct m as [M c s0 s1 c0 c1 w]; simpl in H0, H1; subst s0 s1.
      by destruct e.
    + destruct e; apply Hready.
    + apply Hready.
  - intros rest. rewrite !u54_1_app, Hm. cbn [mbind option_bind run step].
    unfold seq_action. by rewrite Hover.
  - intros core m0. unfold mss_spi_overflow_handler.
    destruct (decide (core ≠ 0)); eexists; (split; [reflexivity|]);
      by destruct m0.
Qed.

(** C7: the command handler changes nothing but the staged reply (not the
    table, not [cmd_idx]); no run ever changes the table; and two frames
    carrying the same command byte, issued in any two ready states, leave
    the same reply bytes with the controller. *)
Theorem C7_dispatch_only_stages_and_is_repeatable
    (m1 m2 : machine) (i : Z) (tail1 tail2 : list Z) :
  link_ready m1 → link_ready m2 →
  master_tx_bytes (mem m1) = i :: tail1 →
  master_tx_bytes (mem m2) = i :: tail2 →
  0 ≤ i ≤ 255 →
  (∀ rx_buff rx_size m0,
     load_byte (mem m0) rx_buff = Some i →
     ∃ m0', spi1_slave_cmd_handler rx_buff rx_size m0 = Some m0' ∧
            only_stages m0 m0') ∧
  (∀ evs, ∃ m, u54_1 evs = Some m ∧
               slave_tx_bytes (mem m) = concat g_slave_tx_buffer) ∧
  ∃ m1' m2',
    u54_1_transfer m1 = Some m1' ∧ u54_1_transfer m2 = Some m2' ∧
    received m1' = received m2' ∧
    slave_tx_bytes (mem m1') = slave_tx_bytes (mem m1) ∧
    slave_tx_bytes (mem m2') = slave_tx_bytes (mem m2) ∧
    cmd_idx m1' = cmd_idx m1 ∧ cmd_idx m2' = cmd_idx m2.
Proof.
  intros Hready1 Hready2 Htx1 Htx2 [Hlo Hhi].
  split_and!.
  - intros rx_buff rx_size m0 Hbyte.
    rewrite (spi1_slave_cmd_handler_stages _ _ _ i Hbyte).
    destruct (MSS_SPI_set_cmd_response_only_stages (staged_for i)
                SLAVE_PACKET_LENGTH m0) as (m0' & Hm0' & Honly & _).
    by exists m0'.
  - intros evs. destruct (u54_1_running evs) as (m & Hm & Hrun).
    exists m. split; [done|]. apply (running_ready _ _ Hrun).
  - exists (after_transfer (i :: tail1) i m1),
           (after_transfer (i :: tail2) i m2).
    split_and!.
    + by apply u54_1_transfer_ready.
    + by apply u54_1_transfer_ready.
    + reflexivity.
    + symmetry. apply Hready1.
    + symmetry. apply Hready2.
    + reflexivity.
    + reflexivity.
Qed.

(** C7 for command byte 1, once at the loop entry and once in the state
    left by an earlier frame that carried command byte 7. *)
Lemma C7_dispatch_only_stages_and_is_repeatable_witness :
  ∃ m1' m2',
    u54_1_transfer (entry_with_command 1) = Some m1' ∧
    u54_1_transfer (after_cycle 7 filler (entry_with_command 7)) = Some m2' ∧
    received m1' = received m2'.
Proof.
  destruct (proj2 (proj2
    (C7_dispatch_only_stages_and_is_repeatable
       (entry_with_command 1) (after_cycle 7 filler (entry_with_command 7))
       1 filler filler
       (entry_with_command_ready 1)
       (after_cycle_ready 7 filler (entry_with_command 7)
          (entry_with_command_ready 7) eq_refl ltac:(lia))
       eq_refl eq_refl ltac:(lia))))
    as (m1' & m2' & H1 & H2 & H3 & _).
  exists m1', m2'. split_and!; assumption.
Defined.

Lemma expected_frame_mosi k :
  drop 1 (mosi (expected_frame k)) = filler ∧
  length (mosi (expected_frame k)) = 5%nat.
Proof. by split. Qed.

(** C8: in every turn of every run the controller sends exactly the five
    bytes [cmd_idx], 0x01, 0x02, 0x03, 0xAA; the turn changes byte 0 of the
    transmit buffer only, so bytes 1 to 4 are 0x01, 0x02, 0x03, 0xAA before
    and after it, and in every frame sent so far. *)
Theorem C8_transmit_frame_and_static_filler (evs : list event) :
  ∃ m m' f,
    u54_1 evs = Some m ∧
    u54_1_loop_body m = Some m' ∧
    wire m' = wire m ++ [f] ∧
    mosi f = [cmd_idx m; 0x01; 0x02; 0x03; 0xAA] ∧
    sizeof (mosi f) = 5 ∧
    master_tx_bytes (mem m) = [cmd_idx m; 0x01; 0x02; 0x03; 0xAA] ∧
    master_tx_bytes (mem m') = [cmd_idx m'; 0x01; 0x02; 0x03; 0xAA] ∧
    drop 1 (master_tx_bytes (mem m')) = drop 1 (master_tx_bytes (mem m)) ∧
    Forall (λ f, drop 1 (mosi f) = [0x01; 0x02; 0x03; 0xAA] ∧
                 length (mosi f) = 5%nat) (wire m').
Proof.
  destruct (u54_1_running evs) as (m & Hm & Hrun).
  destruct (u54_1_loop_body_running _ _ Hrun) as (Hbody & Hrun' & _).
  exists m, (after_cycle (cmd_idx m) filler m). eexists.
  split_and!.
  - done.
  - done.
  - reflexivity.
  - reflexivity.
  - reflexivity.
  - apply (running_tx _ _ Hrun).
  - apply (running_tx _ _ Hrun').
  - by rewrite (running_tx _ _ Hrun), (running_tx _ _ Hrun').
  - rewrite (running_wire _ _ Hrun'). apply Forall_fmap, Forall_forall.
    intros k _. apply expected_frame_mosi.
Qed.

(** C9: when the loop is entered, before any frame and so before the
    command handler has run, the responder's transmit pointer is
    [&g_slave_tx_buffer[0][0]] with length COMMAND_BYTE_SIZE +
    NB_OF_TURNAROUND_BYTES = 5 and no reply is staged: what it would shift
    out is the first 5 bytes of row 0, not an 8-byte reply. *)
Theorem C9_default_transmit_block_before_first_command :
  ∃ m row0,
    u54_1 [] = Some m ∧
    wire m = [] ∧
    slave_tx_buffer (spi1 m) = Some (addr2 obj_slave_tx_buffer 0 0) ∧
    slave_tx_size (spi1 m)
    = uint32 (COMMAND_BYTE_SIZE + NB_OF_TURNAROUND_BYTES) ∧
    slave_tx_size (spi1 m) = 5 ∧
    resp_tx_buffer (spi1 m) = None ∧
    g_slave_tx_buffer !! 0%nat = Some row0 ∧
    responder_shift_out g_mss_spi1_lo m = Some (take 5 row0) ∧
    take 5 row0 = [0x01; 0x02; 0x03; 0x04; 0x05] ∧
    sizeof (take 5 row0) ≠ SLAVE_PACKET_LENGTH.
Proof.
  exists entry. eexists.
  split_and!; try by vm_compute.
Qed.

(** C10: the overflow handler tests its argument for being nonzero: every
    nonzero identifier re-enables the channel of SPI1 and leaves that of
    SPI0 alone, identifier 0 re-enables the channel of SPI0 and leaves that
    of SPI1 alone; one channel per call. *)
Theorem C10_overflow_handler_selects_by_nonzero
    (mss_spi_core : Z) (m : machine) :
  ∃ m',
    mss_spi_overflow_handler mss_spi_core m = Some m' ∧
    ((mss_spi_core ≠ 0 ∧
      m' = set_channel MSS_PERIPH_SPI1 Ready m ∧
      spi1_channel m' = Ready ∧ spi0_channel m' = spi0_channel m) ∨
     (mss_spi_core = 0 ∧
      m' = set_channel MSS_PERIPH_SPI0 Ready m ∧
      spi0_channel m' = Ready ∧ spi1_channel m' = spi1_channel m)).
Proof.
  unfold mss_spi_overflow_handler.
  destruct (decide (mss_spi_core ≠ 0)) as [Hne|Heq].
  - eexists. split; [reflexivity|]. left. by destruct m.
  - eexists. split; [reflexivity|]. right.
    assert (mss_spi_core = 0) by lia. by destruct m.
Qed.

(** * Further properties of the application *)

(** Overflow interrupts between turns do not change what a schedule does. *)
Lemma run_turns evs : ∀ n m,
  running n m → run evs m = run (cycles (turns evs)) m.
Proof.
  induction evs as [|[|e] rest IH]; intros n m Hrun; [done| |].
  - destruct (u54_1_loop_body_running n m Hrun) as (Hbody & Hrun' & _).
    cbn [turns cycles replicate run step]. unfold seq_action.
    rewrite Hbody. cbn [mbind option_bind]. by apply (IH (S n)).
  - cbn [turns run step]. unfold seq_action.
    rewrite overflow_event_ready by apply Hrun.
    cbn [mbind option_bind]. by apply (IH n).
Qed.

Lemma u54_1_turns evs : u54_1 evs = u54_1 (cycles (turns evs)).
Proof.
  unfold u54_1, seq_action. rewrite u54_1_setup_boot. cbn [mbind option_bind].
  apply (run_turns evs 0 entry entry_running).
Qed.

Lemma turns_cycles n : turns (cycles n) = n.
Proof. induction n as [|n IH]; [done|]. cbn [cycles replicate turns]. by f_equal. Qed.

(** X1: every schedule of loop turns and overflow interrupts runs without
    any access outside a buffer, ends in a ready state, has put exactly one
    frame on the link per turn, and ends in the same state as the schedule
    with the same number of turns and no overflow at all. *)
Theorem X1_every_schedule_runs_and_counts_frames (evs : list event) :
  ∃ m,
    u54_1 evs = Some m ∧
    u54_1 (cycles (turns evs)) = Some m ∧
    link_ready m ∧
    length (wire m) = turns evs.
Proof.
  destruct (u54_1_running evs) as (m & Hm & Hrun).
  exists m. split_and!.
  - done.
  - by rewrite <- u54_1_turns.
  - apply Hrun.
  - by rewrite (running_wire _ _ Hrun), length_fmap, length_seq.
Qed.

(** X2: in any run, frame number [k] on the link (counting from 0) carries
    the command [k mod 4] followed by 01 02 03 AA, and the responder
    answers it with 01 02 03 04 05 followed by row [k mod 4] of the table:
    no frame carries the row of another command. *)
Theorem X2_frame_k_of_a_run
    (evs : list event) (m : machine) (k : nat) (f : frame) :
  u54_1 evs = Some m →
  wire m !! k = Some f →
  (k < turns evs)%nat ∧
  mosi f = [Z.of_nat k mod SLAVE_NB_OF_COMMANDS; 0x01; 0x02; 0x03; 0xAA] ∧
  ∃ row,
    g_slave_tx_buffer !! Z.to_nat (Z.of_nat k mod SLAVE_NB_OF_COMMANDS)
    = Some row ∧
    miso f = [0x01; 0x02; 0x03; 0x04; 0x05] ++ row.
Proof.
  intros Hm Hk.
  destruct (u54_1_running evs) as (m0 & Hm0 & Hrun).
  rewrite Hm in Hm0. injection Hm0 as <-.
  rewrite (running_wire _ _ Hrun), list_lookup_fmap in Hk.
  destruct (seq 0 (turns evs) !! k) as [k'|] eqn:Hseq; [|done].
  apply lookup_seq in Hseq as [-> Hlt]. cbn [fmap option_fmap option_map] in Hk.
  injection Hk as <-. cbn [Nat.add].
  split_and!; [done | reflexivity |].
  unfold expected_frame. cbn [miso].
  each_command (mod_command_range k); eexists; split; reflexivity.
Qed.

(** X2 on a run of two turns with an overflow in between: frame 1. *)
Lemma X2_frame_k_of_a_run_witness :
  ∃ m f,
    u54_1 [Cycle; Overflow Responder; Cycle] = Some m ∧
    wire m !! 1%nat = Some f ∧
    mosi f = [1; 0x01; 0x02; 0x03; 0xAA].
Proof.
  pose (m := after_cycle 1 filler (after_cycle 0 filler entry)).
  pose (f := Frame [1; 0x01; 0x02; 0x03; 0xAA]
               [0x01; 0x02; 0x03; 0x04; 0x05;
                0x11; 0x12; 0x13; 0x14; 0x15; 0x16; 0x17; 0x18]).
  assert (u54_1 [Cycle; Overflow Responder; Cycle] = Some m) as Hm
    by (vm_compute; reflexivity).
  assert (wire m !! 1%nat = Some f) as Hf by (vm_compute; reflexivity).
  exists m, f. split; [exact Hm|]. split; [exact Hf|].
  exact (proj1 (proj2 (X2_frame_k_of_a_run _ m 1%nat f Hm Hf))).
Defined.

(** X3: between two turns the controller's receive buffer lags [cmd_idx] by
    one: before the first turn it is all zero, and after turn number [k]
    (counting from 0) it holds row [k mod 4] while [cmd_idx] and
    [g_master_tx_buffer[0]] have already moved on to [(k + 1) mod 4]. *)
Theorem X3_receive_buffer_lags_command_index (evs : list event) :
  ∃ m,
    u54_1 evs = Some m ∧
    match turns evs with
    | O => received m = [0; 0; 0; 0; 0; 0; 0; 0] ∧ cmd_idx m = 0
    | S k =>
        received m
        = default [] (g_slave_tx_buffer
                        !! Z.to_nat (Z.of_nat k mod SLAVE_NB_OF_COMMANDS)) ∧
        cmd_idx m = (Z.of_nat k + 1) mod SLAVE_NB_OF_COMMANDS ∧
        head (master_tx_bytes (mem m)) = Some (cmd_idx m)
    end.
Proof.
  rewrite u54_1_turns. destruct (turns evs) as [|k].
  - exists entry. by vm_compute.
  - unfold cycles. cbn [replicate]. rewrite replicate_cons_app, u54_1_app.
    destruct (u54_1_running (replicate k Cycle)) as (m & Hm & Hrun).
    change (replicate k Cycle) with (cycles k) in Hrun.
    rewrite turns_cycles in Hrun.
    destruct (u54_1_loop_body_running _ _ Hrun) as (Hbody & Hrun' & Hrecv).
    exists (after_cycle (cmd_idx m) filler m).
    rewrite Hm. cbn [mbind option_bind run step]. unfold seq_action.
    rewrite Hbody. split; [done|]. split_and!.
    + by rewrite Hrecv, (running_cmd_idx _ _ Hrun).
    + rewrite (running_cmd_idx _ _ Hrun'), Nat2Z.inj_succ. reflexivity.
    + by rewrite (running_tx _ _ Hrun').
Qed.

(** X4: staging is overwritten, not accumulated: after the command handler
    has run for one command byte, running it for a second one leaves the
    machine exactly as if it had run for the second one alone. *)
Theorem X4_last_command_wins
    (rx1 rx2 : pointer) (n1 n2 : Z) (m m1 : machine) :
  spi1_slave_cmd_handler rx1 n1 m = Some m1 →
  spi1_slave_cmd_handler rx2 n2 m1 = spi1_slave_cmd_handler rx2 n2 m.
Proof.
  unfold spi1_slave_cmd_handler. intros H1.
  destruct (load_byte (mem m) rx1) as [i|]; [|done].
  injection H1 as <-. destruct m as [M c s0 s1 c0 c1 w]. cbn [mem set_instance].
  by destruct (load_byte M rx2).
Qed.

(** X4 at the loop entry, reading the command byte once from
    [g_master_tx_buffer[0]] (value 0) and then from [g_master_tx_buffer[3]]
    (value 3). *)
Lemma X4_last_command_wins_witness :
  spi1_slave_cmd_handler (addr obj_master_tx_buffer 3) 1
    (set_instance g_mss_spi1_lo
       (responder_instance (Some (addr2 obj_slave_tx_buffer 0 0)) 8) entry)
  = spi1_slave_cmd_handler (addr obj_master_tx_buffer 3) 1 entry.
Proof.
  exact (X4_last_command_wins (addr obj_master_tx_buffer 0)
           (addr obj_master_tx_buffer 3) 1 1 entry _ eq_refl).
Defined.

(** X5: the overflow handler is idempotent, two calls commute whatever
    their arguments, and after one call for core 0 and one for core 1 both
    channels are ready whatever state they were in. *)
Theorem X5_overflow_handler_composes (core1 core2 : Z) (m : machine) :
  (mss_spi_overflow_handler core1 ;;; mss_spi_overflow_handler core1)%act m
  = mss_spi_overflow_handler core1 m ∧
  (mss_spi_overflow_handler core1 ;;; mss_spi_overflow_handler core2)%act m
  = (mss_spi_overflow_handler core2 ;;; mss_spi_overflow_handler core1)%act m ∧
  ∃ m',
    (mss_spi_overflow_handler 0 ;;; mss_spi_overflow_handler 1)%act m
    = Some m' ∧
    spi0_channel m' = Ready ∧ spi1_channel m' = Ready.
Proof.
  unfold mss_spi_overflow_handler, seq_action.
  destruct m as [M c s0 s1 c0 c1 w]. split_and!.
  - by destruct (decide (core1 ≠ 0)).
  - by destruct (decide (core1 ≠ 0)), (decide (core2 ≠ 0)).
  - eexists. by split_and!.
Qed.

(** X6: the overflow handler may run before or after the command handler,
    and before or after the update of the command index, with the same
    result: it shares no state with either. *)
Theorem X6_overflow_handler_is_independent
    (core : Z) (rx_buff : pointer) (rx_size : Z) (m : machine) :
  (spi1_slave_cmd_handler rx_buff rx_size ;;; mss_spi_overflow_handler core)%act m
  = (mss_spi_overflow_handler core ;;; spi1_slave_cmd_handler rx_buff rx_size)%act m ∧
  (u54_1_next_command ;;; mss_spi_overflow_handler core)%act m
  = (mss_spi_overflow_handler core ;;; u54_1_next_command)%act m.
Proof.
  unfold mss_spi_overflow_handler, spi1_slave_cmd_handler, u54_1_next_command,
    seq_action.
  destruct m as [M c s0 s1 c0 c1 w].
  destruct (decide (core ≠ 0)); cbn [mss_config_clk_rst pure_action mbind
    option_bind set_channel mem cmd_idx]; split.
  - by destruct (load_byte M rx_buff).
  - by destruct (store M (addr obj_master_tx_buffer 0) [next_cmd_idx c]).
  - by destruct (load_byte M rx_buff).
  - by destruct (store M (addr obj_master_tx_buffer 0) [next_cmd_idx c]).
Qed.

Lemma next_cmd_idx_in_range c :
  0 ≤ c < SLAVE_NB_OF_COMMANDS → 0 ≤ next_cmd_idx c < SLAVE_NB_OF_COMMANDS.
Proof. intros Hc. each_command Hc; by vm_compute. Qed.

Lemma iter_next_cmd_idx_in_range n c :
  0 ≤ c < SLAVE_NB_OF_COMMANDS →
  0 ≤ Nat.iter n next_cmd_idx c < SLAVE_NB_OF_COMMANDS.
Proof.
  intros Hc. induction n as [|n IH]; [done|].
  cbn [Nat.iter nat_rect]. by apply next_cmd_idx_in_range.
Qed.

Lemma iter_next_cmd_idx_linear j c :
  4 ≤ c → c + Z.of_nat j ≤ 255 →
  Nat.iter j next_cmd_idx c = c + Z.of_nat j.
Proof.
  intros Hc. induction j as [|j IH]; intros Hj.
  - cbn. lia.
  - cbn [Nat.iter nat_rect]. change (nat_rect _ _ _ j) with
      (Nat.iter j next_cmd_idx c).
    rewrite IH by lia. unfold next_cmd_idx, uint8.
    rewrite decide_False by lia. change (2 ^ 8) with 256.
    rewrite Z.mod_small; lia.
Qed.

(** X7: the command index recovers from any byte value.  From a value [c]
    between 4 and 255 the loop counts up through 255 without wrapping at 4
    (the test is [3u == cmd_idx]), reaches 0 after exactly [256 - c] turns,
    and from then on, as from any value below 4, stays below 4. *)
Theorem X7_command_index_recovers (c : Z) :
  4 ≤ c ≤ 255 →
  (∀ j, (j < Z.to_nat (256 - c))%nat →
        Nat.iter j next_cmd_idx c = c + Z.of_nat j ∧
        ¬ Nat.iter j next_cmd_idx c < SLAVE_NB_OF_COMMANDS) ∧
  Nat.iter (Z.to_nat (256 - c)) next_cmd_idx c = 0 ∧
  ∀ n, (Z.to_nat (256 - c) ≤ n)%nat →
       0 ≤ Nat.iter n next_cmd_idx c < SLAVE_NB_OF_COMMANDS.
Proof.
  intros [Hlo Hhi].
  assert (Nat.iter (Z.to_nat (256 - c)) next_cmd_idx c = 0) as Hzero.
  { replace (Z.to_nat (256 - c)) with (S (Z.to_nat (255 - c))) by lia.
    cbn [Nat.iter nat_rect].
    change (nat_rect _ _ _ (Z.to_nat (255 - c))) with
      (Nat.iter (Z.to_nat (255 - c)) next_cmd_idx c).
    rewrite iter_next_cmd_idx_linear by lia.
    replace (c + Z.of_nat (Z.to_nat (255 - c))) with 255 by lia.
    reflexivity. }
  split_and!.
  - intros j Hj. rewrite iter_next_cmd_idx_linear by lia.
    split; [done|]. unfold SLAVE_NB_OF_COMMANDS. lia.
  - done.
  - intros n Hn.
    replace n with ((n - Z.to_nat (256 - c)) + Z.to_nat (256 - c))%nat by lia.
    rewrite Nat.iter_add, Hzero.
    apply iter_next_cmd_idx_in_range. by vm_compute.
Qed.

(** X7 for the value 200: back to 0 after 56 turns. *)
Lemma X7_command_index_recovers_witness :
  Nat.iter 56 next_cmd_idx 200 = 0.
Proof.
  exact (proj1 (proj2 (X7_command_index_recovers 200 ltac:(lia)))).
Defined.

(** X8: the reply tells the in-range commands apart: two frames that carry
    different command bytes below 4 never leave the same eight bytes with
    the controller. *)
Theorem X8_reply_identifies_command
    (m1 m2 m1' m2' : machine) (i j : Z) (tail1 tail2 : list Z) :
  link_ready m1 → link_ready m2 →
  master_tx_bytes (mem m1) = i :: tail1 →
  master_tx_bytes (mem m2) = j :: tail2 →
  0 ≤ i < SLAVE_NB_OF_COMMANDS →
  0 ≤ j < SLAVE_NB_OF_COMMANDS →
  u54_1_transfer m1 = Some m1' →
  u54_1_transfer m2 = Some m2' →
  i ≠ j →
  received m1' ≠ received m2'.
Proof.
  intros Hready1 Hready2 Htx1 Htx2 Hi Hj H1 H2 Hne.
  rewrite (u54_1_transfer_ready m1 i tail1) in H1 by (done || lia).
  rewrite (u54_1_transfer_ready m2 j tail2) in H2 by (done || lia).
  injection H1 as <-. injection H2 as <-.
  cbn [received after_transfer mem master_rx_bytes].
  each_command Hi; each_command Hj; try done; by vm_compute.
Qed.

(** X8 for command 1 at the loop entry and command 2 two turns later. *)
Lemma X8_reply_identifies_command_witness :
  received (after_transfer (1 :: filler) 1 (entry_with_command 1))
  ≠ received (after_transfer (2 :: filler) 2
                (after_cycle 1 filler
                   (after_cycle 5 filler (entry_with_command 5)))).
Proof.
  refine (X8_reply_identifies_command
            (entry_with_command 1)
            (after_cycle 1 filler (after_cycle 5 filler (entry_with_command 5)))
            _ _ 1 2 filler filler
            (entry_with_command_ready 1) _ eq_refl eq_refl _ _ _ _ _).
  - apply after_cycle_ready; [|reflexivity|lia].
    apply after_cycle_ready; [|reflexivity|lia].
    apply entry_with_command_ready.
  - unfold SLAVE_NB_OF_COMMANDS. lia.
  - unfold SLAVE_NB_OF_COMMANDS. lia.
  - vm_compute. reflexivity.
  - vm_compute. reflexivity.
  - lia.
Defined.

(** X9: one turn of the loop from any ready state, whatever the transmit
    buffer holds: the frame carries the buffer as it was (its byte 0 even
    if that differs from [cmd_idx]), the turn changes byte 0 only, and it
    leaves byte 0 equal to the new [cmd_idx] in a state that is ready
    again. *)
Theorem X9_turn_from_any_ready_state
    (m : machine) (command : Z) (tail : list Z) :
  link_ready m →
  master_tx_bytes (mem m) = command :: tail →
  0 ≤ command →
  ∃ m' f,
    u54_1_loop_body m = Some m' ∧
    link_ready m' ∧
    wire m' = wire m ++ [f] ∧
    mosi f = command :: tail ∧
    cmd_idx m' = next_cmd_idx (cmd_idx m) ∧
    master_tx_bytes (mem m') = cmd_idx m' :: tail.
Proof.
  intros Hready Htx Hcommand.
  assert (length tail = 4%nat) as Htail.
  { pose proof (ready_master_tx m Hready) as Hlen.
    rewrite Htx in Hlen. cbn [length] in Hlen. lia. }
  exists (after_cycle command tail m). eexists.
  split_and!.
  - by apply u54_1_loop_body_ready.
  - by apply after_cycle_ready.
  - reflexivity.
  - reflexivity.
  - reflexivity.
  - reflexivity.
Qed.

(** X9 at the loop entry with byte 9 in place of the command. *)
Lemma X9_turn_from_any_ready_state_witness :
  ∃ m' f,
    u54_1_loop_body (entry_with_command 9) = Some m' ∧
    link_ready m' ∧
    wire m' = wire (entry_with_command 9) ++ [f] ∧
    mosi f = 9 :: filler ∧
    cmd_idx m' = next_cmd_idx (cmd_idx (entry_with_command 9)) ∧
    master_tx_bytes (mem m') = cmd_idx m' :: filler.
Proof.
  exact (X9_turn_from_any_ready_state (entry_with_command 9) 9 filler
           (entry_with_command_ready 9) eq_refl ltac:(lia)).
Defined.
